(** * experiment.py: the SmallWorld experiment class

    A shallow embedding of [src/experiment.py] and the properties of
    its methods.

    Conventions of the embedding.
    - Python [int]s are [Z].  Python [float]s (and numpy float arrays)
      are exact rationals [Q]: rounding and overflow of binary64 are
      idealised away.  The concrete evaluations below use dyadic values
      (0, 1/2, 1, 9/2, ...) on which binary64 arithmetic is exact.
    - An exception is its class name and its message; a computation
      that can raise returns a [result].
    - Methods with effects (the random generator used by networkx, the
      terminal, matplotlib's current figure and the image files written)
      run in a state-and-exception monad [M] over a [World].  Effects that
      happened before an exception was raised stay in the world.
    - networkx and Python's float formatting are outside the repository:
      they are the fields of the class [Libs]. *)

From Stdlib Require Import ZArith QArith Qround Qpower String Ascii List Bool Lia
  Lqa Psatz Field DecimalString.
Import ListNotations.
Local Open Scope Z_scope.

(** ** Exceptions and results *)

Record exn := Exn { exn_class : string; exn_msg : string }.

Definition ValueError (msg : string) : exn := Exn "ValueError" msg.
Definition ZeroDivisionError (msg : string) : exn := Exn "ZeroDivisionError" msg.
Definition IndexError (msg : string) : exn := Exn "IndexError" msg.

Inductive result (A : Type) : Type :=
| Ok (a : A)
| Raise (e : exn).
Arguments Ok {A} a.
Arguments Raise {A} e.

Definition rbind {A B} (r : result A) (f : A -> result B) : result B :=
  match r with
  | Ok a => f a
  | Raise e => Raise e
  end.

Declare Scope result_scope.
Delimit Scope result_scope with result.
Notation "x <- c ;; k" := (rbind c (fun x => k))
  (at level 61, c at next level, right associativity) : result_scope.

(** A list comprehension whose body can raise: the first exception
    aborts the comprehension. *)
Fixpoint rmap {A B} (f : A -> result B) (l : list A) : result (list B) :=
  match l with
  | [] => Ok []
  | x :: l' =>
      (y <- f x ;;
       ys <- rmap f l' ;;
       Ok (y :: ys))%result
  end.

(** ** Python and numpy primitives used by the script *)

(** [a / b] on two [int]s: true division. *)
Definition truediv (a b : Z) : result Q :=
  if b =? 0 then Raise (ZeroDivisionError "division by zero")
  else Ok (inject_Z a / inject_Z b)%Q.

(** [l[idx]] for a non-negative index. *)
Definition getitem {A} (l : list A) (idx : nat) : result A :=
  match nth_error l idx with
  | Some a => Ok a
  | None => Raise (IndexError "list index out of range")
  end.

(** [enumerate(l)] *)
Definition enumerate {A} (l : list A) : list (nat * A) :=
  combine (seq 0 (length l)) l.

(** [str(i)] for an [int]. *)
Definition str_int (i : Z) : string := NilZero.string_of_int (Z.to_int i).

(** [round(x, ndigits)]: to the nearest multiple of [10^-ndigits], ties to
    the even one. *)
Definition round_half_even (y : Q) : Z :=
  let f := Qfloor y in
  let r := (y - inject_Z f)%Q in
  match (r ?= 1 # 2)%Q with
  | Lt => f
  | Gt => f + 1
  | Eq => if Z.even f then f else f + 1
  end.

Definition round (x : Q) (ndigits : Z) : Q :=
  let p := Qpower 10 ndigits in
  (inject_Z (round_half_even (x * p)) / p)%Q.

(** Elementwise comparisons of a numpy array with a scalar. *)
Definition Qlt_bool (x y : Q) : bool := negb (Qle_bool y x).

Definition np_eq (a : list Q) (c : Q) : list bool := map (fun x => Qeq_bool x c) a.
Definition np_lt (a : list Q) (c : Q) : list bool := map (fun x => Qlt_bool x c) a.
Definition np_gt (a : list Q) (c : Q) : list bool := map (fun x => Qlt_bool c x) a.

(** [c1 & c2] on boolean arrays of one shape. *)
Definition np_and (c1 c2 : list bool) : list bool :=
  map (fun p : bool * bool => andb (fst p) (snd p)) (combine c1 c2).

(** [np.zeros(len)] *)
Definition np_zeros (len : nat) : list Q := repeat 0%Q len.

(** [np.where(cond, x, y)], the three arrays of one shape. *)
Definition np_where (cond : list bool) (x y : list Q) : list Q :=
  map (fun t : bool * (Q * Q) => if fst t then fst (snd t) else snd (snd t))
      (combine cond (combine x y)).

(** A scalar operand broadcast to the shape of [a]. *)
Definition broadcast {A} (c : Q) (a : list A) : list Q := map (fun _ => c) a.

(** ** The libraries the script imports *)

Class Libs := {
  (** a networkx graph, a layout (node positions) and the state of the
      module-global random generator *)
  Graph : Type;
  Layout : Type;
  RandomState : Type;
  (** [nx.watts_strogatz_graph(n, k, p)]: draws from the global generator,
      may raise *)
  watts_strogatz_graph : Z -> Z -> Q -> RandomState -> (result Graph * RandomState)%type;
  (** [nx.circular_layout(g)] *)
  circular_layout : Graph -> Layout;
  (** [nx.average_shortest_path_length(g)]: may raise *)
  average_shortest_path_length : Graph -> result Q;
  (** how Python prints a number in an f-string or in [str.format] *)
  str_float : Q -> string
}.

Section Experiment.
Context {libs : Libs}.

(** ** The world and its monad *)

(** A matplotlib figure: its size, its title with the font size, and the
    graphs drawn on it. *)
Record Figure := mkFigure {
  figsize : Z * Z;
  fig_title : option (string * Z);
  drawn : list (Graph * Layout)
}.

Record World := mkWorld {
  rng : RandomState;
  stdout : list string;
  current_figure : option Figure;
  files : list (string * Figure)
}.

Definition M (A : Type) : Type := World -> (result A * World)%type.

Definition ret {A} (a : A) : M A := fun w => (Ok a, w).

Definition raise {A} (e : exn) : M A := fun w => (Raise e, w).

Definition bind {A B} (c : M A) (f : A -> M B) : M B :=
  fun w =>
    match c w with
    | (Ok a, w') => f a w'
    | (Raise e, w') => (Raise e, w')
    end.

Definition lift {A} (r : result A) : M A := fun w => (r, w).

Declare Scope m_scope.
Delimit Scope m_scope with M.
Notation "x <- c ;; k" := (bind c (fun x => k))
  (at level 61, c at next level, right associativity) : m_scope.
Notation "c ;;; k" := (bind c (fun _ => k))
  (at level 61, right associativity) : m_scope.

(** A list comprehension with effects, left to right. *)
Fixpoint mapM {A B} (f : A -> M B) (l : list A) : M (list B) :=
  match l with
  | [] => ret []
  | x :: l' =>
      (y <- f x ;;
       ys <- mapM f l' ;;
       ret (y :: ys))%M
  end.

(** A [for] loop. *)
Fixpoint for_ {A} (l : list A) (body : A -> M unit) : M unit :=
  match l with
  | [] => ret tt
  | x :: l' => (body x ;;; for_ l' body)%M
  end.

(** [print(line)] *)
Definition print (line : string) : M unit :=
  fun w => (Ok tt, mkWorld (rng w) (stdout w ++ [line]) (current_figure w) (files w)).

(** [nx.watts_strogatz_graph(n, k, p)] on the global generator *)
Definition nx_watts_strogatz_graph (n k : Z) (p : Q) : M Graph :=
  fun w =>
    let (r, s) := watts_strogatz_graph n k p (rng w) in
    (r, mkWorld s (stdout w) (current_figure w) (files w)).

(** [plt.figure(figsize=...)]: a new, empty current figure *)
Definition plt_figure (size : Z * Z) : M unit :=
  fun w => (Ok tt, mkWorld (rng w) (stdout w) (Some (mkFigure size None [])) (files w)).

(** the current figure; matplotlib opens a default one when there is none *)
Definition gcf (w : World) : Figure :=
  match current_figure w with
  | Some f => f
  | None => mkFigure (640, 480) None []
  end.

(** [plt.title(label, {'fontsize': size})] *)
Definition plt_title (label : string) (size : Z) : M unit :=
  fun w =>
    let f := gcf w in
    (Ok tt, mkWorld (rng w) (stdout w)
              (Some (mkFigure (figsize f) (Some (label, size)) (drawn f))) (files w)).

(** [nx.draw_networkx(g, pos)] *)
Definition nx_draw_networkx (g : Graph) (pos : Layout) : M unit :=
  fun w =>
    let f := gcf w in
    (Ok tt, mkWorld (rng w) (stdout w)
              (Some (mkFigure (figsize f) (fig_title f) (drawn f ++ [(g, pos)]))) (files w)).

(** [plt.savefig(fname)]: the current figure is written to [fname] *)
Definition plt_savefig (fname : string) : M unit :=
  fun w =>
    let f := gcf w in
    (Ok tt, mkWorld (rng w) (stdout w) (Some f) (files w ++ [(fname, f)])).

(** ** class SmallWorld *)

(** The [beta] argument of the constructor: a number or a list. *)
Inductive beta_arg :=
| BetaScalar (b : Q)
| BetaList (l : list Q).

(** The attributes of an instance.  The first five are set from the
    constructor's arguments by the [setattr] loop. *)
Record SmallWorld := mkSmallWorld {
  n : Z;
  k : Z;
  beta : list Q;
  visualize : bool;
  fig_path : string;
  g : list Graph;
  pos : list Layout
}.

(** [self.beta] after [if not isinstance(beta, list): self.beta = [beta]] *)
Definition self_beta (beta : beta_arg) : list Q :=
  match beta with
  | BetaList l => l
  | BetaScalar b => [b]
  end.

Definition __init__ (n k : Z) (beta : beta_arg) (visualize : bool)
    (fig_path : string) : M SmallWorld :=
  (self_g <- mapM (fun b => nx_watts_strogatz_graph n k b) (self_beta beta) ;;
   let self_pos := map circular_layout self_g in
   ret (mkSmallWorld n k (self_beta beta) visualize fig_path self_g self_pos))%M.

Definition get_avg_path (self : SmallWorld) : result (list Q) :=
  rmap average_shortest_path_length (g self).

Definition get_clustering_coefficient (self : SmallWorld) : result (list Q) :=
  let result := np_zeros (length (beta self)) in
  let betas := beta self in
  let lattice := (inject_Z (3 * (k self - 2)) / 4 * inject_Z (k self - 1))%Q in
  let result := np_where (np_eq betas 0) (broadcast lattice betas) result in
  (random <- truediv (k self) (n self) ;;
   let result := np_where (np_eq betas 1) (broadcast random betas) result in
   let result :=
     np_where (np_and (np_lt betas 1) (np_gt betas 0))
       (map (fun b => (lattice * (1 - b) ^ 3)%Q) betas) result in
   Ok result)%result.

(** The line feed of the f-string. *)
Definition nl : string := String (ascii_of_nat 10) EmptyString.

(** [f"graph{idx}.png"] *)
Definition png_name (idx : nat) : string :=
  ("graph" ++ str_int (Z.of_nat idx) ++ ".png")%string.

(** The body of the loop of [visualize_graph], at [(idx, b)]. *)
Definition visualize_graph_body (self : SmallWorld) (avg_paths clusters : list Q)
    (ib : nat * Q) : M unit :=
  let idx := fst ib in
  let b := snd ib in
  (avg_path <- lift (getitem avg_paths idx) ;;
   cluster <- lift (getitem clusters idx) ;;
   let labels :=
     ("beta=" ++ str_float b ++ nl ++
      "avg_path_length=" ++ str_float (round avg_path 2) ++ nl ++
      "clustering_coefficient=" ++ str_float (round cluster 2))%string in
   plt_figure (14, 14) ;;;
   plt_title labels 24 ;;;
   g_idx <- lift (getitem (g self) idx) ;;
   pos_idx <- lift (getitem (pos self) idx) ;;
   nx_draw_networkx g_idx pos_idx ;;;
   plt_savefig (png_name idx))%M.

Definition visualize_graph (self : SmallWorld) : M unit :=
  if n self >? 5000 then
    raise (ValueError "Number of nodes is too much, it's hard to visualize graph as image")
  else
    (avg_paths <- lift (get_avg_path self) ;;
     clusters <- lift (get_clustering_coefficient self) ;;
     for_ (enumerate (beta self)) (visualize_graph_body self avg_paths clusters))%M.

(** The [{:<w}] and [{:>w}] fields of [str.format]: padding with spaces,
    never truncating. *)
Definition spaces (len : nat) : string := string_of_list_ascii (repeat " "%char len).

Definition ljust (w : nat) (s : string) : string :=
  (s ++ spaces (w - String.length s))%string.

Definition rjust (w : nat) (s : string) : string :=
  (spaces (w - String.length s) ++ s)%string.

(** ["{:<5} |{:>20} |{:>30} |{:>30}".format(a, b, c, d)] *)
Definition format_row (a b c d : string) : string :=
  (ljust 5 a ++ " |" ++ rjust 20 b ++ " |" ++ rjust 30 c ++ " |" ++ rjust 30 d)%string.

(** The [if]/[elif]/[else] of the loop of [print_info]. *)
Definition network_cat (b : Q) : string :=
  if Qeq_bool b 0 then "Regular network (Ring lattice)"
  else if Qeq_bool b 1 then "Random network"
  else "Small-world network".

Definition print_info (self : SmallWorld) (avg_paths clusters : list Q) : M unit :=
  (print ("Number of nodes: " ++ str_int (n self))%string ;;;
   print ("K: " ++ str_int (k self))%string ;;;
   print (format_row "beta" "avg shortest path" "clustering coefficient"
            "network category") ;;;
   for_ (enumerate (beta self)) (fun ib =>
     let idx := fst ib in
     let b := snd ib in
     avg_path <- lift (getitem avg_paths idx) ;;
     cluster <- lift (getitem clusters idx) ;;
     print (format_row (str_float b) (str_float avg_path) (str_float cluster)
              (network_cat b))))%M.

Definition main : M unit :=
  (network <- __init__ 20 4 (BetaList [0; 2 # 10; 4 # 10; 1]%Q) true "networkx.png" ;;
   avg_paths <- lift (get_avg_path network) ;;
   clusters <- lift (get_clustering_coefficient network) ;;
   print_info network avg_paths clusters ;;;
   visualize_graph network)%M.

End Experiment.

(** ** A model of the imported libraries, for concrete runs

    The general theorems below hold for every [Libs].  Concrete runs
    need one: this module follows networkx's [watts_strogatz_graph],
    [circular_layout] and [average_shortest_path_length] on a small graph
    type.  Two stand-ins: the random generator is a linear congruential
    one (its state is the seed), and a position of the circular layout is
    the fraction [i/n] of the full turn rather than its cosine and sine. *)

Module Nx.

Record graph := mkGraph { nodes : list Z; edges : list (Z * Z) }.

Definition NetworkXError (msg : string) : exn := Exn "NetworkXError" msg.
Definition NetworkXPointlessConcept (msg : string) : exn :=
  Exn "NetworkXPointlessConcept" msg.

(** [list(range(n))] *)
Fixpoint count_from (start : Z) (len : nat) : list Z :=
  match len with
  | O => []
  | S len' => start :: count_from (start + 1) len'
  end.

Definition range (n : Z) : list Z := count_from 0 (Z.to_nat n).

Definition joins (u v : Z) (e : Z * Z) : bool :=
  ((fst e =? u) && (snd e =? v)) || ((fst e =? v) && (snd e =? u)).

Definition has_edge (G : graph) (u v : Z) : bool := existsb (joins u v) (edges G).

Definition add_node (G : graph) (u : Z) : graph :=
  if existsb (Z.eqb u) (nodes G) then G else mkGraph (nodes G ++ [u]) (edges G).

Definition add_edge (G : graph) (u v : Z) : graph :=
  let G := add_node (add_node G u) v in
  if has_edge G u v then G else mkGraph (nodes G) (edges G ++ [(u, v)]).

Definition remove_edge (G : graph) (u v : Z) : graph :=
  mkGraph (nodes G) (filter (fun e => negb (joins u v e)) (edges G)).

Definition neighbors (G : graph) (u : Z) : list Z :=
  flat_map (fun e : Z * Z =>
              if fst e =? u then [snd e]
              else if snd e =? u then [fst e] else []) (edges G).

Definition degree (G : graph) (u : Z) : Z := Z.of_nat (length (neighbors G u)).

(** [nx.empty_graph(n)] and [nx.complete_graph(n)] *)
Definition empty_graph (n : Z) : graph := mkGraph (range n) [].

Definition complete_graph (n : Z) : graph :=
  mkGraph (range n)
    (flat_map (fun u => map (fun v => (u, v)) (filter (fun v => u <? v) (range n)))
       (range n)).

(** The generator: [random()] is uniform on [0, 1), [choice(seq)] picks
    an element. *)
Definition rstate := Z.

Definition random (s : rstate) : Q * rstate :=
  let s' := (75 * s + 74) mod 65537 in
  (s' # 65537, s').

Definition choice (l : list Z) (s : rstate) : Z * rstate :=
  let (u, s') := random s in
  (nth (Z.to_nat (Qfloor (u * inject_Z (Z.of_nat (length l))))) l 0, s').

(** [nodes[j:] + nodes[0:j]] *)
Definition rotate (j : nat) (l : list Z) : list Z := skipn j l ++ firstn j l.

(** The [while ... else] of the rewiring, entered with the candidate [w]:
    [Some w] when the loop ends without [break].  The loop is cut after
    [fuel] draws, where the rewiring is skipped. *)
Fixpoint draw_target (fuel : nat) (G : graph) (n u w : Z) (l : list Z) (s : rstate)
  : option Z * rstate :=
  if (w =? u) || has_edge G u w then
    match fuel with
    | O => (None, s)
    | S fuel' =>
        let (w', s') := choice l s in
        if degree G u >=? n - 1 then (None, s')
        else draw_target fuel' G n u w' l s'
    end
  else (Some w, s).

Definition rewire_edge (n : Z) (p : Q) (l : list Z) (Gs : graph * rstate) (uv : Z * Z)
  : graph * rstate :=
  let (G, s) := Gs in
  let (u, v) := uv in
  let (x, s1) := random s in
  if Qlt_bool x p then
    let (w, s2) := choice l s1 in
    match draw_target 1000 G n u w l s2 with
    | (Some w', s3) => (add_edge (remove_edge G u v) u w', s3)
    | (None, s3) => (G, s3)
    end
  else (G, s1).

(** [range(1, k // 2 + 1)] *)
Definition offsets (k : Z) : list nat := seq 1 (Z.to_nat (k / 2)).

Definition watts_strogatz_graph (n k : Z) (p : Q) (s : rstate) : result graph * rstate :=
  if k >? n then (Raise (NetworkXError "k>n, choose smaller k or larger n"), s)
  else if k =? n then (Ok (complete_graph n), s)
  else
    let l := range n in
    let G :=
      fold_left (fun G j =>
                   fold_left (fun G uv => add_edge G (fst uv) (snd uv))
                     (combine l (rotate j l)) G)
        (offsets k) (empty_graph n) in
    let (G', s') :=
      fold_left (fun Gs j => fold_left (rewire_edge n p l) (combine l (rotate j l)) Gs)
        (offsets k) (G, s) in
    (Ok G', s').

(** [nx.circular_layout(G)]: node [i] of [n] at the angle [2*pi*i/n]. *)
Definition layout := list (Z * Q).

Definition circular_layout (G : graph) : layout :=
  let len := Z.of_nat (length (nodes G)) in
  map (fun iu : nat * Z => (snd iu, (Z.of_nat (fst iu) # 1) / inject_Z len)%Q)
    (enumerate (nodes G)).

(** Breadth-first search from the nodes of [frontier], at distance [d]
    from the source: the nodes reached and the sum of their distances. *)
Fixpoint bfs (fuel : nat) (G : graph) (seen frontier : list Z) (d total : Z)
  : list Z * Z :=
  match fuel with
  | O => (seen, total)
  | S fuel' =>
      let next :=
        nodup Z.eq_dec
          (filter (fun v => negb (existsb (Z.eqb v) seen))
             (flat_map (neighbors G) frontier)) in
      match next with
      | [] => (seen, total)
      | _ => bfs fuel' G (seen ++ next) next (d + 1)
               (total + (d + 1) * Z.of_nat (length next))
      end
  end.

Definition reach (G : graph) (u : Z) : list Z * Z :=
  bfs (length (nodes G)) G [u] [u] 0 0.

Definition is_connected (G : graph) : bool :=
  match nodes G with
  | [] => false
  | u :: _ => (length (fst (reach G u)) =? length (nodes G))%nat
  end.

Definition average_shortest_path_length (G : graph) : result Q :=
  let len := Z.of_nat (length (nodes G)) in
  if len =? 0 then
    Raise (NetworkXPointlessConcept
             "the null graph has no paths, thus there is no average shortest path length")
  else if len =? 1 then Ok 0%Q
  else if negb (is_connected G) then Raise (NetworkXError "Graph is not connected.")
  else
    let total := fold_left (fun acc u => acc + snd (reach G u)) (nodes G) 0 in
    Ok (inject_Z total / inject_Z (len * (len - 1)))%Q.

(** Decimal rendering of a number: the integer part, a point and at most
    sixteen decimals, the trailing zeros dropped. *)
Definition digit (d : Z) : string := String (ascii_of_nat (48 + Z.to_nat d)) EmptyString.

Fixpoint decimals (fuel : nat) (r den : Z) : string :=
  match fuel with
  | O => EmptyString
  | S fuel' =>
      if r =? 0 then EmptyString
      else (digit (10 * r / den) ++ decimals fuel' ((10 * r) mod den) den)%string
  end.

Definition str_float (q : Q) : string :=
  let a := Z.abs (Qnum q) in
  let den := Zpos (Qden q) in
  let frac := decimals 16 (a mod den) den in
  let sign := if Qnum q <? 0 then "-"%string else ""%string in
  let int_part := str_int (a / den) in
  (sign ++ int_part ++ "." ++ (if String.eqb frac "" then "0" else frac))%string.

Definition libs : Libs :=
  Build_Libs graph layout rstate watts_strogatz_graph circular_layout
    average_shortest_path_length str_float.

(** The world a script starts in, with the generator seeded. *)
Definition start (seed : Z) : @World libs := @mkWorld libs seed [] None [].

End Nx.

(** ** Objects for the concrete runs *)

(** The object a constructor call returns, for a call that returned. *)
Definition object_of {libs : Libs} (r : result SmallWorld * World) : SmallWorld :=
  match fst r with
  | Ok self => self
  | Raise _ => mkSmallWorld 0 0 [] false "" [] []
  end.

(** [SmallWorld(n, k, beta)], the optional arguments at their defaults, in
    a fresh world with the generator seeded. *)
Definition construct (n k : Z) (beta : beta_arg) (seed : Z)
  : result (@SmallWorld Nx.libs) * @World Nx.libs :=
  @__init__ Nx.libs n k beta true "networkx.png" (Nx.start seed).

(** The network of [main], with betas that binary64 represents exactly. *)
Definition network : @SmallWorld Nx.libs :=
  object_of (construct 20 4 (BetaList [0; 1 # 2; 1]%Q) 42).

(** The same call from another seed. *)
Definition network_reseeded : @SmallWorld Nx.libs :=
  object_of (construct 20 4 (BetaList [0; 1 # 2; 1]%Q) 7).



(** Whether a constructor call returned an object. *)
Definition returned {libs : Libs} (r : result SmallWorld * World) : bool :=
  match fst r with
  | Ok _ => true
  | Raise _ => false
  end.

(** The class of the exception a call raised, if it raised. *)
Definition raised_class {libs : Libs} {A} (r : result A * World) : option string :=
  match fst r with
  | Ok _ => None
  | Raise e => Some (exn_class e)
  end.




(** [SmallWorld(20, 4, 0.5)]: a number for beta. *)
Definition one_beta : @SmallWorld Nx.libs :=
  object_of (construct 20 4 (BetaScalar (1 # 2)) 42).

(** ** The entries of the clustering coefficients

    The entry of the list [get_clustering_coefficient] returns at an
    entry [b] of the betas: the three [np.where] selections, the last one
    first. *)
Definition coefficient_at (n k : Z) (b : Q) : Q :=
  let lattice := (inject_Z (3 * (k - 2)) / 4 * inject_Z (k - 1))%Q in
  if Qlt_bool b 1 && Qlt_bool 0 b then (lattice * (1 - b) ^ 3)%Q
  else if Qeq_bool b 1 then (inject_Z k / inject_Z n)%Q
  else if Qeq_bool b 0 then lattice
  else 0%Q.

(** [SmallWorld(8, 2, [0, 1])] from seed 2: the rewiring of the second
    graph leaves it disconnected. *)
Definition broken : @SmallWorld Nx.libs :=
  object_of (construct 8 2 (BetaList [0; 1]%Q) 2).

(** ** What the two reporting methods produce *)

Section Artifacts.
Context {libs : Libs}.



(** The three lines [print_info] prints before the rows. *)
Definition table_head (self : SmallWorld) : list string :=
  [("Number of nodes: " ++ str_int (n self))%string;
   ("K: " ++ str_int (k self))%string;
   format_row "beta" "avg shortest path" "clustering coefficient" "network category"].

(** The row of a beta and its two metrics. *)
Definition table_row (t : Q * (Q * Q)) : string :=
  format_row (str_float (fst t)) (str_float (fst (snd t))) (str_float (snd (snd t)))
    (network_cat (fst t)).

(** The body of the loop of [print_info], at [(idx, b)]. *)
Definition print_info_body (avg_paths clusters : list Q) (ib : nat * Q) : M unit :=
  let idx := fst ib in
  let b := snd ib in
  bind (lift (getitem avg_paths idx)) (fun avg_path =>
  bind (lift (getitem clusters idx)) (fun cluster =>
  print (format_row (str_float b) (str_float avg_path) (str_float cluster)
           (network_cat b)))).

(** The outcome of a loop over the betas that reads [avg_paths[idx]] and
    [clusters[idx]]: it returns when both lists are long enough. *)
Definition rows_outcome (betas avg_paths clusters : list Q) : result unit :=
  if (length betas <=? Nat.min (length avg_paths) (length clusters))%nat then Ok tt
  else Raise (IndexError "list index out of range").

End Artifacts.


(** The network of [main] again, constructed with [visualize=False]. *)
Definition network_hidden : @SmallWorld Nx.libs :=
  object_of (@__init__ Nx.libs 20 4 (BetaList [0; 1 # 2; 1]%Q) false "networkx.png"
               (Nx.start 42)).

(** * Properties *)

Section ArrayLemmas.

Lemma np_zeros_map {A} (l : list A) : np_zeros (length l) = map (fun _ => 0%Q) l.
Proof. unfold np_zeros. induction l; simpl; congruence. Qed.

Lemma np_where_map {A} (c : A -> bool) (x y : A -> Q) (l : list A) :
  np_where (map c l) (map x l) (map y l) = map (fun a => if c a then x a else y a) l.
Proof. unfold np_where. induction l; simpl; congruence. Qed.

Lemma np_and_map {A} (c1 c2 : A -> bool) (l : list A) :
  np_and (map c1 l) (map c2 l) = map (fun a => c1 a && c2 a) l.
Proof. unfold np_and. induction l; simpl; congruence. Qed.

Lemma Qlt_bool_iff (x y : Q) : Qlt_bool x y = true <-> (x < y)%Q.
Proof.
  unfold Qlt_bool. rewrite negb_true_iff, <- not_true_iff_false, Qle_bool_iff.
  split; [apply Qnot_le_lt | apply Qlt_not_le].
Qed.

Lemma Qlt_bool_false (x y : Q) : (y <= x)%Q -> Qlt_bool x y = false.
Proof.
  intros H. apply not_true_iff_false. rewrite Qlt_bool_iff. now apply Qle_not_lt.
Qed.

Lemma Qeq_bool_false (x y : Q) : ~ (x == y)%Q -> Qeq_bool x y = false.
Proof. intros H. apply not_true_iff_false. now rewrite Qeq_bool_iff. Qed.

End ArrayLemmas.

Section Clustering.
Context {libs : Libs}.

(** With [n = 0] the quotient [k/n], evaluated whatever the betas are,
    raises. *)
Lemma clustering_zero_nodes (self : SmallWorld) :
  n self = 0 ->
  get_clustering_coefficient self = Raise (ZeroDivisionError "division by zero").
Proof. intros H. unfold get_clustering_coefficient, truediv. now rewrite H. Qed.

(** Otherwise the method returns, entry by entry. *)
Lemma clustering_entries (self : SmallWorld) :
  n self <> 0 ->
  get_clustering_coefficient self =
  Ok (map (coefficient_at (n self) (k self)) (beta self)).
Proof.
  intros H. unfold get_clustering_coefficient, truediv, broadcast, np_eq, np_lt, np_gt.
  destruct (Z.eqb_spec (n self) 0) as [E | _]; [contradiction |]. simpl.
  rewrite np_zeros_map, np_and_map, !np_where_map. reflexivity.
Qed.

Lemma clustering_entry (self : SmallWorld) (idx : nat) (b : Q) :
  n self <> 0 ->
  nth_error (beta self) idx = Some b ->
  exists r, get_clustering_coefficient self = Ok r /\
            nth_error r idx = Some (coefficient_at (n self) (k self) b).
Proof.
  intros Hn Hb. eexists. split; [now apply clustering_entries |].
  now rewrite nth_error_map, Hb.
Qed.

Lemma coefficient_at_zero (n k : Z) (b : Q) :
  (b == 0)%Q -> coefficient_at n k b = (inject_Z (3 * (k - 2)) / 4 * inject_Z (k - 1))%Q.
Proof.
  intros H. unfold coefficient_at.
  rewrite (Qlt_bool_false 0 b) by (rewrite H; apply Qle_refl).
  rewrite andb_false_r.
  rewrite (Qeq_bool_false b 1) by (rewrite H; discriminate).
  now rewrite (proj2 (Qeq_bool_iff b 0) H).
Qed.

Lemma coefficient_at_one (n k : Z) (b : Q) :
  (b == 1)%Q -> coefficient_at n k b = (inject_Z k / inject_Z n)%Q.
Proof.
  intros H. unfold coefficient_at.
  rewrite (Qlt_bool_false b 1) by (rewrite H; apply Qle_refl).
  simpl. now rewrite (proj2 (Qeq_bool_iff b 1) H).
Qed.

Lemma coefficient_at_between (n k : Z) (b : Q) :
  (0 < b)%Q -> (b < 1)%Q ->
  coefficient_at n k b =
  (inject_Z (3 * (k - 2)) / 4 * inject_Z (k - 1) * (1 - b) ^ 3)%Q.
Proof.
  intros H0 H1. unfold coefficient_at.
  now rewrite (proj2 (Qlt_bool_iff b 1) H1), (proj2 (Qlt_bool_iff 0 b) H0).
Qed.


(** The two groupings of [3(k-2)/4(k-1)] differ for every [k > 2]. *)
Lemma grouping_differs (k : Z) :
  2 < k ->
  ~ (inject_Z (3 * (k - 2)) / 4 * inject_Z (k - 1) ==
     inject_Z (3 * (k - 2)) / (4 * inject_Z (k - 1)))%Q.
Proof.
  intros Hk E.
  assert (Ha : (0 < inject_Z (3 * (k - 2)))%Q) by (rewrite <- (Zlt_Qlt 0); lia).
  assert (Hc : (2 <= inject_Z (k - 1))%Q) by (rewrite <- (Zle_Qle 2); lia).
  generalize dependent (inject_Z (3 * (k - 2))).
  generalize dependent (inject_Z (k - 1)). intros c Hc a E Ha.
  assert (Hne : ~ (c == 0)%Q) by (intros E0; rewrite E0 in Hc; now apply Hc).
  field_simplify_eq in E; auto. simpl in E.
  assert (H4 : (4 <= c * c)%Q) by nra.
  assert (H5 : (a * 4 <= a * (c * c))%Q) by (apply Qmult_le_l; assumption).
  lra.
Qed.

Lemma scaled_differs (x y s : Q) : (0 < s)%Q -> ~ (x == y)%Q -> ~ (x * s == y * s)%Q.
Proof.
  intros Hs Hxy E. apply Hxy. apply (Qmult_inj_r x y s); [lra | exact E].
Qed.

(** C1. For every even [k > 2] and [n > k], at a beta entry equal to 0
    the method returns [(3(k-2)/4)*(k-1)], the quotient by 4 multiplied by
    [k-1], and this is never the value [3(k-2)/(4(k-1))] of the claim. *)
Theorem lattice_entry_multiplies_by_k_minus_1 (self : SmallWorld) (idx : nat) (b : Q) :
  Z.even (k self) = true -> 2 < k self -> k self < n self ->
  nth_error (beta self) idx = Some b -> (b == 0)%Q ->
  exists r,
    get_clustering_coefficient self = Ok r /\
    nth_error r idx =
      Some (inject_Z (3 * (k self - 2)) / 4 * inject_Z (k self - 1))%Q /\
    ~ (inject_Z (3 * (k self - 2)) / 4 * inject_Z (k self - 1) ==
       inject_Z (3 * (k self - 2)) / (4 * inject_Z (k self - 1)))%Q.
Proof.
  intros _ Hk Hn Hb H0.
  destruct (clustering_entry self idx b) as [r [Hr Hidx]]; [lia | assumption |].
  exists r. rewrite coefficient_at_zero in Hidx by assumption.
  repeat split; [assumption | assumption | now apply grouping_differs].
Qed.

(** C2. For every even [k > 2], [n > k] and beta entry strictly between 0
    and 1, the method returns [(3(k-2)/4)*(k-1)*(1-beta)^3], and this is
    never the value [(3(k-2)/(4(k-1)))*(1-beta)^3] of the claim. *)
Theorem rewired_entry_multiplies_by_k_minus_1 (self : SmallWorld) (idx : nat) (b : Q) :
  Z.even (k self) = true -> 2 < k self -> k self < n self ->
  nth_error (beta self) idx = Some b -> (0 < b)%Q -> (b < 1)%Q ->
  exists r,
    get_clustering_coefficient self = Ok r /\
    nth_error r idx =
      Some (inject_Z (3 * (k self - 2)) / 4 * inject_Z (k self - 1) * (1 - b) ^ 3)%Q /\
    ~ (inject_Z (3 * (k self - 2)) / 4 * inject_Z (k self - 1) * (1 - b) ^ 3 ==
       inject_Z (3 * (k self - 2)) / (4 * inject_Z (k self - 1)) * (1 - b) ^ 3)%Q.
Proof.
  intros _ Hk Hn Hb H0 H1.
  destruct (clustering_entry self idx b) as [r [Hr Hidx]]; [lia | assumption |].
  exists r. rewrite coefficient_at_between in Hidx by assumption.
  repeat split; [assumption | assumption |].
  apply scaled_differs; [| now apply grouping_differs].
  apply Qpower_0_lt. lra.
Qed.

(** C5. For every [k] and [n] with [n > k >= 1], at a beta entry equal to
    1 the method returns exactly [k/n]. *)
Theorem random_entry_is_k_over_n (self : SmallWorld) (idx : nat) (b : Q) :
  1 <= k self -> k self < n self ->
  nth_error (beta self) idx = Some b -> (b == 1)%Q ->
  exists r,
    get_clustering_coefficient self = Ok r /\
    nth_error r idx = Some (inject_Z (k self) / inject_Z (n self))%Q.
Proof.
  intros Hk Hn Hb H1.
  destruct (clustering_entry self idx b) as [r [Hr Hidx]]; [lia | assumption |].
  exists r. rewrite coefficient_at_one in Hidx by assumption. now split.
Qed.

(** C8. The clustering coefficients depend on [n], [k] and the betas
    only: two objects that agree on them, whatever their graphs, layouts
    and other attributes, get the same result (the same list or the same
    exception).  The method runs outside the world monad: it reads no
    random state and no graph. *)
Theorem clustering_depends_on_parameters_only (s1 s2 : SmallWorld) :
  n s1 = n s2 -> k s1 = k s2 -> beta s1 = beta s2 ->
  get_clustering_coefficient s1 = get_clustering_coefficient s2.
Proof.
  intros Hn Hk Hb. unfold get_clustering_coefficient. now rewrite Hn, Hk, Hb.
Qed.


End Clustering.


Section Classification.

(** C6. The classification is total: beta equal to 0 is a regular network,
    beta equal to 1 a random network, and every other beta (0.37 for one)
    a small-world network. *)
Theorem network_cat_total (b : Q) :
  ((b == 0)%Q -> network_cat b = "Regular network (Ring lattice)"%string) /\
  ((b == 1)%Q -> network_cat b = "Random network"%string) /\
  (~ (b == 0)%Q -> ~ (b == 1)%Q -> network_cat b = "Small-world network"%string) /\
  network_cat 0 = "Regular network (Ring lattice)"%string /\
  network_cat 1 = "Random network"%string /\
  network_cat (37 # 100) = "Small-world network"%string.
Proof.
  unfold network_cat. repeat split; intros.
  - now rewrite (proj2 (Qeq_bool_iff b 0)).
  - rewrite (Qeq_bool_false b 0) by (rewrite H; discriminate).
    now rewrite (proj2 (Qeq_bool_iff b 1)).
  - now rewrite (Qeq_bool_false b 0), (Qeq_bool_false b 1).
Qed.

End Classification.

Section Construction.
Context {libs : Libs}.

Lemma builder_calls_return (n k : Z) (l : list Q) :
  (forall b s, In b l -> exists G s', watts_strogatz_graph n k b s = (Ok G, s')) ->
  forall w, exists gs w',
    mapM (fun b => nx_watts_strogatz_graph n k b) l w = (Ok gs, w') /\
    length gs = length l.
Proof.
  induction l as [| b l IH]; intros Hall w; simpl.
  - now exists [], w.
  - destruct (Hall b (rng w) (or_introl eq_refl)) as [G [s' HG]].
    unfold bind at 1. unfold nx_watts_strogatz_graph at 1. rewrite HG.
    destruct (IH (fun b' s H => Hall b' s (or_intror H))
                (mkWorld s' (stdout w) (current_figure w) (files w)))
      as [gs [w' [Hgs Hlen]]].
    unfold bind at 1. rewrite Hgs. exists (G :: gs), w'. simpl. now rewrite Hlen.
Qed.

Lemma builder_calls_raise (n k : Z) (l : list Q) (w w' : World) (e : exn) :
  mapM (fun b => nx_watts_strogatz_graph n k b) l w = (Raise e, w') ->
  exists b s s', In b l /\ watts_strogatz_graph n k b s = (Raise e, s').
Proof.
  revert w. induction l as [| b l IH]; intros w; simpl.
  - discriminate.
  - unfold bind at 1. unfold nx_watts_strogatz_graph at 1.
    destruct (watts_strogatz_graph n k b (rng w)) as [[G | e0] s0] eqn:HG.
    + unfold bind at 1.
      destruct (mapM _ l _) as [[gs | e1] w1] eqn:Hrest; [discriminate |].
      intros H. injection H as -> ->.
      destruct (IH _ Hrest) as [b' [s [s' [Hin Hb']]]].
      exists b', s, s'. split; [now right | assumption].
    + intros H. injection H as -> _.
      exists b, (rng w), s0. split; [now left | assumption].
Qed.

(** C3, as amended.  The constructor checks none of its arguments: whatever
    [n], [k] and the betas are, it returns an object with these attributes
    as soon as every [nx.watts_strogatz_graph] call returns a graph, and
    an exception it raises is the one such a call raised. *)
Theorem constructor_checks_nothing (nodes degree : Z) (beta_in : beta_arg)
    (visualize_in : bool) (path : string) (w : World) :
  ((forall b s, In b (self_beta beta_in) ->
      exists G s', watts_strogatz_graph nodes degree b s = (Ok G, s')) ->
   exists self w',
     __init__ nodes degree beta_in visualize_in path w = (Ok self, w') /\
     n self = nodes /\ k self = degree /\ beta self = self_beta beta_in /\
     length (g self) = length (self_beta beta_in)) /\
  (forall e w',
     __init__ nodes degree beta_in visualize_in path w = (Raise e, w') ->
     exists b s s',
       In b (self_beta beta_in) /\
       watts_strogatz_graph nodes degree b s = (Raise e, s')).
Proof.
  split.
  - intros Hall.
    destruct (builder_calls_return nodes degree _ Hall w) as [gs [w' [Hgs Hlen]]].
    eexists. exists w'. unfold __init__, bind. rewrite Hgs. simpl.
    repeat split; assumption.
  - intros e w'. unfold __init__, bind.
    destruct (mapM _ _ w) as [[gs | e0] w0] eqn:Hgs; [discriminate |].
    intros H. inversion H; subst. now apply (builder_calls_raise nodes degree _ w w').
Qed.

End Construction.

Section Loops.
Context {libs : Libs}.

Lemma rmap_length {A B} (f : A -> result B) (l : list A) (r : list B) :
  rmap f l = Ok r -> length r = length l.
Proof.
  revert r. induction l as [| a l IH]; intros r; simpl.
  - intros H. now inversion H.
  - destruct (f a) as [y | e]; simpl; [| discriminate].
    destruct (rmap f l) as [ys | e]; simpl; [| discriminate].
    intros H. inversion H. simpl. now rewrite (IH ys).
Qed.

Lemma getitem_in_range {A} (l : list A) (idx : nat) :
  (idx < length l)%nat -> exists a, getitem l idx = Ok a.
Proof.
  intros H. unfold getitem. destruct (nth_error l idx) as [a |] eqn:E.
  - now exists a.
  - apply nth_error_None in E. lia.
Qed.

Lemma enumerate_indices {A} (l : list A) : map fst (enumerate l) = seq 0 (length l).
Proof.
  unfold enumerate. generalize 0%nat. induction l as [| a l IH]; intros start; simpl.
  - reflexivity.
  - now rewrite IH.
Qed.

Lemma enumerate_in_range {A} (l : list A) (ib : nat * A) :
  In ib (enumerate l) -> (fst ib < length l)%nat.
Proof.
  intros H. apply (in_map fst) in H. rewrite enumerate_indices in H.
  apply in_seq in H. lia.
Qed.

Lemma firstn_seq_le (m start len : nat) :
  (m <= len)%nat -> firstn m (seq start len) = seq start m.
Proof.
  revert start len. induction m as [| m IH]; intros start len H; [reflexivity |].
  destruct len as [| len]; [lia |]. simpl. rewrite IH by lia. reflexivity.
Qed.

Variable body : nat * Q -> M unit.

(** A loop whose body, at [(idx, b)], either returns after writing the one
    file [png_name idx] or raises without writing a file: it writes the
    files of the indices it completed, in order. *)
Lemma for_files (ps : list (nat * Q)) :
  (forall ib w r w', body ib w = (r, w') ->
     (r = Ok tt /\ map fst (files w') = map fst (files w) ++ [png_name (fst ib)]) \/
     ((exists e, r = Raise e) /\ files w' = files w)) ->
  forall w r w', for_ ps body w = (r, w') ->
  exists m, (m <= length ps)%nat /\
    map fst (files w') = map fst (files w) ++ map png_name (firstn m (map fst ps)) /\
    (r = Ok tt -> m = length ps).
Proof.
  intros Hbody. induction ps as [| ib ps IH]; intros w r w'; simpl.
  - unfold ret. intros H. inversion H; subst. exists 0%nat.
    simpl. rewrite app_nil_r. repeat split. lia.
  - unfold bind at 1. destruct (body ib w) as [[[] | e] w1] eqn:Hib.
    + destruct (Hbody _ _ _ _ Hib) as [[_ Hw1] | [[e He] _]]; [| discriminate].
      intros Hrest. destruct (IH _ _ _ Hrest) as [m [Hm [Hfiles Hall]]].
      exists (S m). simpl. rewrite Hfiles, Hw1, <- app_assoc. simpl.
      repeat split; [lia | now intros ->; rewrite Hall].
    + destruct (Hbody _ _ _ _ Hib) as [[Hok _] | [_ Hw1]]; [discriminate |].
      intros H. inversion H; subst. exists 0%nat. simpl.
      rewrite Hw1, app_nil_r. repeat split; [lia | discriminate].
Qed.

Lemma for_returns (ps : list (nat * Q)) :
  (forall ib, In ib ps -> forall w, exists w', body ib w = (Ok tt, w')) ->
  forall w, exists w', for_ ps body w = (Ok tt, w').
Proof.
  induction ps as [| ib ps IH]; intros Hbody w; simpl.
  - now exists w.
  - destruct (Hbody ib (or_introl eq_refl) w) as [w1 Hib].
    unfold bind at 1. rewrite Hib.
    apply IH. intros ib' Hin. apply Hbody. now right.
Qed.

End Loops.

Section Visualization.
Context {libs : Libs}.

Lemma body_files (self : SmallWorld) (avg_paths clusters : list Q) (ib : nat * Q)
    (w : World) (r : result unit) (w' : World) :
  visualize_graph_body self avg_paths clusters ib w = (r, w') ->
  (r = Ok tt /\ map fst (files w') = map fst (files w) ++ [png_name (fst ib)]) \/
  ((exists e, r = Raise e) /\ files w' = files w).
Proof.
  unfold visualize_graph_body, bind, lift.
  destruct (getitem avg_paths (fst ib)) as [a | e];
    [| intros H; inversion H; right; split; [now exists e | reflexivity]].
  destruct (getitem clusters (fst ib)) as [c | e];
    [| intros H; inversion H; right; split; [now exists e | reflexivity]].
  simpl.
  destruct (getitem (g self) (fst ib)) as [gi | e];
    [| intros H; inversion H; right; split; [now exists e | reflexivity]].
  destruct (getitem (pos self) (fst ib)) as [p | e];
    [| intros H; inversion H; right; split; [now exists e | reflexivity]].
  simpl. intros H. inversion H. left. split; [reflexivity |].
  simpl. now rewrite map_app.
Qed.

Lemma body_returns (self : SmallWorld) (avg_paths clusters : list Q) (ib : nat * Q) :
  (fst ib < length avg_paths)%nat -> (fst ib < length clusters)%nat ->
  (fst ib < length (g self))%nat -> (fst ib < length (pos self))%nat ->
  forall w, exists w', visualize_graph_body self avg_paths clusters ib w = (Ok tt, w').
Proof.
  intros Ha Hc Hg Hp w.
  destruct (getitem_in_range avg_paths _ Ha) as [a Ea].
  destruct (getitem_in_range clusters _ Hc) as [c Ec].
  destruct (getitem_in_range (g self) _ Hg) as [gi Eg].
  destruct (getitem_in_range (pos self) _ Hp) as [p Ep].
  unfold visualize_graph_body, bind, lift. rewrite Ea, Ec. simpl.
  rewrite Eg, Ep. simpl. eexists. reflexivity.
Qed.

(** The files a call writes: those of the first [m] betas, under the
    names [graph0.png], [graph1.png], ..., all of them when it returns. *)
Lemma visualize_graph_files (self : SmallWorld) (w : World) (r : result unit)
    (w' : World) :
  visualize_graph self w = (r, w') ->
  exists m, (m <= length (beta self))%nat /\
    map fst (files w') = map fst (files w) ++ map png_name (seq 0 m) /\
    (r = Ok tt -> m = length (beta self)).
Proof.
  assert (Hnone : forall e, (Raise e, w) = (r, w') ->
            exists m, (m <= length (beta self))%nat /\
              map fst (files w') = map fst (files w) ++ map png_name (seq 0 m) /\
              (r = Ok tt -> m = length (beta self))).
  { intros e H. inversion H; subst. exists 0%nat. simpl. rewrite app_nil_r.
    repeat split; [lia | discriminate]. }
  unfold visualize_graph. destruct (n self >? 5000); [apply Hnone |].
  unfold bind at 1. unfold lift at 1.
  destruct (get_avg_path self) as [avg_paths | e]; [| apply Hnone].
  unfold bind at 1. unfold lift at 1.
  destruct (get_clustering_coefficient self) as [clusters | e]; [| apply Hnone].
  intros H.
  destruct (for_files _ _ (body_files self avg_paths clusters) _ _ _ H)
    as [m [Hm [Hfiles Hall]]].
  rewrite enumerate_indices in Hfiles.
  assert (Hlen : length (enumerate (beta self)) = length (beta self)).
  { rewrite <- (length_map fst), enumerate_indices. apply length_seq. }
  rewrite Hlen in Hm, Hall.
  rewrite firstn_seq_le in Hfiles by assumption.
  now exists m.
Qed.



(** C7. A number given for beta is wrapped into a one-element list before
    the graphs are built: the builder is called once, with that number, and
    the object has one beta, one graph and one layout; the lists the metric
    methods return have length 1. *)
Theorem scalar_beta_is_wrapped (nodes degree : Z) (b : Q) (visualize_in : bool)
    (path : string) (w : World) (G : Graph) (s' : RandomState) :
  watts_strogatz_graph nodes degree b (rng w) = (Ok G, s') ->
  exists self w',
    __init__ nodes degree (BetaScalar b) visualize_in path w = (Ok self, w') /\
    beta self = [b] /\ g self = [G] /\ pos self = [circular_layout G] /\
    rng w' = s' /\
    (forall r, get_avg_path self = Ok r -> length r = 1%nat) /\
    (forall r, get_clustering_coefficient self = Ok r -> length r = 1%nat) /\
    (n self <> 0 -> exists c, get_clustering_coefficient self = Ok [c]).
Proof.
  intros HG. eexists. eexists.
  unfold __init__, bind. simpl. unfold bind, nx_watts_strogatz_graph. rewrite HG.
  simpl. split; [reflexivity |]. simpl. repeat split.
  - intros r Hr. now rewrite (rmap_length _ _ _ Hr).
  - intros r. destruct (Z.eq_dec nodes 0) as [E | E].
    + rewrite clustering_zero_nodes by assumption. discriminate.
    + rewrite clustering_entries by assumption. intros H. now inversion H.
  - intros Hn. rewrite clustering_entries by assumption. simpl. eexists. reflexivity.
Qed.

End Visualization.


(** * Concrete runs on the model of the libraries *)

Section Runs.

(** Closed goals are settled by evaluation. *)
Ltac conjs := repeat match goal with |- _ /\ _ => split end.
Ltac run := vm_compute; first [reflexivity | discriminate].

(** The model's graph builder returns a graph whenever [k <= n]. *)
Lemma nx_builder_returns (n k : Z) (p : Q) (s : Nx.rstate) :
  k <= n -> exists G s', Nx.watts_strogatz_graph n k p s = (Ok G, s').
Proof.
  intros H. unfold Nx.watts_strogatz_graph.
  destruct (Z.gtb_spec k n) as [Hgt | _]; [lia |].
  destruct (k =? n); [now eexists; eexists |].
  match goal with |- context [fold_left ?f ?l ?a] => destruct (fold_left f l a) end.
  now eexists; eexists.
Qed.

(** What [main]'s network gets for its clustering coefficients: 4.5 at
    beta 0, 0.5625 at beta 0.5 and 0.2 at beta 1. *)
Example network_coefficients :
  get_clustering_coefficient network = Ok [18 # 4; 18 # 32; 4 # 20]%Q /\
  (18 # 4 == 45 # 10)%Q /\ (18 # 32 == 5625 # 10000)%Q /\ (4 # 20 == 2 # 10)%Q.
Proof. conjs; run. Qed.

Example png_names :
  map png_name [0; 1; 12]%nat = ["graph0.png"; "graph1.png"; "graph12.png"]%string.
Proof. reflexivity. Qed.

Lemma lattice_entry_multiplies_by_k_minus_1_witness :
  (Z.even (k network) = true /\ 2 < k network /\ k network < n network /\
   nth_error (beta network) 0 = Some 0%Q /\ (0 == 0)%Q) /\
  exists r,
    get_clustering_coefficient network = Ok r /\
    nth_error r 0 = Some (inject_Z (3 * (4 - 2)) / 4 * inject_Z (4 - 1))%Q /\
    ~ (inject_Z (3 * (4 - 2)) / 4 * inject_Z (4 - 1) ==
       inject_Z (3 * (4 - 2)) / (4 * inject_Z (4 - 1)))%Q.
Proof.
  split; [conjs; run |].
  apply (lattice_entry_multiplies_by_k_minus_1 network 0 0%Q); run.
Defined.

Lemma rewired_entry_multiplies_by_k_minus_1_witness :
  (Z.even (k network) = true /\ 2 < k network /\ k network < n network /\
   nth_error (beta network) 1 = Some (1 # 2) /\ (0 < 1 # 2)%Q /\ (1 # 2 < 1)%Q) /\
  exists r,
    get_clustering_coefficient network = Ok r /\
    nth_error r 1 =
      Some (inject_Z (3 * (4 - 2)) / 4 * inject_Z (4 - 1) * (1 - (1 # 2)) ^ 3)%Q /\
    ~ (inject_Z (3 * (4 - 2)) / 4 * inject_Z (4 - 1) * (1 - (1 # 2)) ^ 3 ==
       inject_Z (3 * (4 - 2)) / (4 * inject_Z (4 - 1)) * (1 - (1 # 2)) ^ 3)%Q.
Proof.
  split; [conjs; run |].
  apply (rewired_entry_multiplies_by_k_minus_1 network 1 (1 # 2)); run.
Defined.

Lemma random_entry_is_k_over_n_witness :
  (1 <= k network /\ k network < n network /\
   nth_error (beta network) 2 = Some 1%Q /\ (1 == 1)%Q) /\
  exists r,
    get_clustering_coefficient network = Ok r /\
    nth_error r 2 = Some (inject_Z 4 / inject_Z 20)%Q.
Proof.
  split; [conjs; run |].
  apply (random_entry_is_k_over_n network 2 1%Q); run.
Defined.

Lemma clustering_depends_on_parameters_only_witness :
  (n network = n network_reseeded /\ k network = k network_reseeded /\
   beta network = beta network_reseeded /\ g network <> g network_reseeded) /\
  get_clustering_coefficient network = get_clustering_coefficient network_reseeded.
Proof.
  split; [conjs; run |].
  apply (clustering_depends_on_parameters_only network network_reseeded); run.
Defined.



Lemma network_cat_total_witness :
  ~ (37 # 100 == 0)%Q /\ ~ (37 # 100 == 1)%Q /\
  network_cat (37 # 100) = "Small-world network"%string.
Proof.
  assert (H0 : ~ (37 # 100 == 0)%Q) by run.
  assert (H1 : ~ (37 # 100 == 1)%Q) by run.
  conjs; [exact H0 | exact H1 |].
  exact (proj1 (proj2 (proj2 (network_cat_total (37 # 100)))) H0 H1).
Defined.

(** C3, the claim as stated fails: the constructor returns an object for
    an odd [k], for [k = 0], for [k = n], for [n = 0] and for a beta above
    1; for [k > n] the exception comes from networkx and is a
    [NetworkXError]. *)
Lemma invalid_parameters_are_accepted :
  (Z.odd 3 = true /\ returned (construct 20 3 (BetaList [0]%Q) 42) = true) /\
  returned (construct 20 0 (BetaList [0]%Q) 42) = true /\
  returned (construct 20 20 (BetaList [0]%Q) 42) = true /\
  returned (construct 0 0 (BetaList [0]%Q) 42) = true /\
  returned (construct 20 4 (BetaList [2]%Q) 42) = true /\
  raised_class (construct 20 21 (BetaList [0]%Q) 42) = Some "NetworkXError"%string.
Proof. conjs; run. Qed.

Lemma constructor_checks_nothing_witness :
  exists self w',
    construct 20 3 (BetaList [0]%Q) 42 = (Ok self, w') /\
    n self = 20 /\ k self = 3 /\ beta self = [0%Q] /\ length (g self) = 1%nat.
Proof.
  apply (proj1 (constructor_checks_nothing (libs := Nx.libs) 20 3 (BetaList [0]%Q) true
                  "networkx.png" (Nx.start 42))).
  intros b s _. apply nx_builder_returns. lia.
Defined.



Lemma scalar_beta_is_wrapped_witness :
  exists G s',
    Nx.watts_strogatz_graph 20 4 (1 # 2) 42 = (Ok G, s') /\
    exists self w',
      construct 20 4 (BetaScalar (1 # 2)) 42 = (Ok self, w') /\
      beta self = [1 # 2] /\ g self = [G] /\ pos self = [Nx.circular_layout G] /\
      rng w' = s' /\
      (forall r, get_avg_path self = Ok r -> length r = 1%nat) /\
      (forall r, get_clustering_coefficient self = Ok r -> length r = 1%nat) /\
      (n self <> 0 -> exists c, get_clustering_coefficient self = Ok [c]).
Proof.
  destruct (Nx.watts_strogatz_graph 20 4 (1 # 2) 42) as [[G | e] s'] eqn:HG;
    [| vm_compute in HG; discriminate HG].
  exists G, s'. split; [reflexivity |].
  exact (scalar_beta_is_wrapped (libs := Nx.libs) 20 4 (1 # 2) true "networkx.png"
           (Nx.start 42) G s' HG).
Defined.

(** The object built from a number has one beta, and each metric one entry. *)
Example one_beta_lengths :
  returned (construct 20 4 (BetaScalar (1 # 2)) 42) = true /\
  beta one_beta = [1 # 2] /\ length (g one_beta) = 1%nat /\
  get_clustering_coefficient one_beta = Ok [18 # 32] /\
  get_avg_path one_beta = Ok [808 # 380].
Proof. conjs; run. Qed.


(** The three images of that network, by name. *)
Example network_images :
  map fst (files (snd (visualize_graph network (Nx.start 42)))) =
  ["graph0.png"; "graph1.png"; "graph2.png"]%string.
Proof. run. Qed.
End Runs.

(** * Further properties of the metrics *)

Section Metrics.
Context {libs : Libs}.

Lemma rmap_entries {A B} (f : A -> result B) (l : list A) (r : list B) :
  rmap f l = Ok r <-> Forall2 (fun a b => f a = Ok b) l r.
Proof.
  revert r. induction l as [| a l IH]; intros r; simpl.
  - split; intros H; [inversion H; constructor | now inversion H].
  - destruct (f a) as [y | e] eqn:Ea; simpl.
    + destruct (rmap f l) as [ys | e] eqn:El; simpl.
      * split; intros H.
        -- inversion H; subst. constructor; [assumption | now apply IH].
        -- inversion H as [| ? b ? r' Hb Hr]; subst.
           apply IH in Hr. rewrite Ea in Hb. now inversion Hb; inversion Hr.
      * split; intros H; [discriminate |].
        inversion H as [| ? b ? r' Hb Hr]; subst. apply IH in Hr. discriminate.
    + split; intros H; [discriminate |].
      inversion H as [| ? b ? r' Hb Hr]; subst. rewrite Ea in Hb. discriminate.
Qed.

Lemma rmap_first_failure {A B} (f : A -> result B) (l1 l2 : list A) (a : A) (e : exn) :
  (forall a', In a' l1 -> exists b, f a' = Ok b) -> f a = Raise e ->
  rmap f (l1 ++ a :: l2) = Raise e.
Proof.
  intros Hl1 Ha. induction l1 as [| a1 l1 IH]; simpl.
  - now rewrite Ha.
  - destruct (Hl1 a1 (or_introl eq_refl)) as [b Hb]. rewrite Hb. simpl.
    rewrite IH; [reflexivity |]. intros a' Hin. apply Hl1. now right.
Qed.

(** X1. [get_avg_path] returns a list exactly when networkx computes the
    average path length of every graph of the object; the list then has
    one entry per graph, in the order of the graphs, each the value of its
    graph. *)
Theorem get_avg_path_entries (self : SmallWorld) (r : list Q) :
  get_avg_path self = Ok r <->
  Forall2 (fun G a => average_shortest_path_length G = Ok a) (g self) r.
Proof. apply rmap_entries. Qed.

(** X2. One graph without an average path length (a disconnected one)
    makes the whole call fail: [get_avg_path] raises the exception of the
    first graph networkx rejects, and returns no value for the others. *)
Theorem get_avg_path_first_failure (self : SmallWorld) (gs1 gs2 : list Graph)
    (G : Graph) (e : exn) :
  g self = gs1 ++ G :: gs2 ->
  (forall G', In G' gs1 -> exists a, average_shortest_path_length G' = Ok a) ->
  average_shortest_path_length G = Raise e ->
  get_avg_path self = Raise e.
Proof.
  intros Hg Hgs1 HG. unfold get_avg_path. rewrite Hg.
  now apply rmap_first_failure.
Qed.


Lemma lattice_value_nonneg (k : Z) :
  (0 <= inject_Z (3 * (k - 2)) / 4 * inject_Z (k - 1))%Q.
Proof.
  assert (H : (inject_Z (3 * (k - 2)) / 4 * inject_Z (k - 1) ==
               inject_Z (3 * ((k - 2) * (k - 1))) / 4)%Q).
  { rewrite !inject_Z_mult. field. }
  rewrite H. apply Qle_shift_div_l; [reflexivity |].
  rewrite Qmult_0_l. rewrite <- (Zle_Qle 0).
  destruct (Z_le_gt_dec k 1); nia.
Qed.

Lemma lattice_value_above_one (k : Z) :
  3 <= k -> (1 < inject_Z (3 * (k - 2)) / 4 * inject_Z (k - 1))%Q.
Proof.
  intros Hk.
  assert (H : (inject_Z (3 * (k - 2)) / 4 * inject_Z (k - 1) ==
               inject_Z (3 * ((k - 2) * (k - 1))) / 4)%Q).
  { rewrite !inject_Z_mult. field. }
  rewrite H. apply Qlt_shift_div_l; [reflexivity |].
  rewrite Qmult_1_l. rewrite <- (Zlt_Qlt 4). nia.
Qed.

(** X4. For every [k >= 3] the entry at a beta equal to 0 is greater than
    1: the value the method returns for the ring lattice is outside the
    range [0, 1] of a clustering coefficient. *)
Theorem lattice_entry_exceeds_one (self : SmallWorld) (idx : nat) (b : Q) :
  3 <= k self -> n self <> 0 ->
  nth_error (beta self) idx = Some b -> (b == 0)%Q ->
  exists r v,
    get_clustering_coefficient self = Ok r /\ nth_error r idx = Some v /\ (1 < v)%Q.
Proof.
  intros Hk Hn Hb H0.
  destruct (clustering_entry self idx b Hn Hb) as [r [Hr Hidx]].
  rewrite coefficient_at_zero in Hidx by assumption.
  exists r. eexists. repeat split; [eassumption | eassumption |].
  now apply lattice_value_above_one.
Qed.



Lemma coefficient_at_nonneg (n k : Z) (b : Q) :
  0 <= k -> 0 < n -> (0 <= coefficient_at n k b)%Q.
Proof.
  intros Hk Hn. unfold coefficient_at.
  destruct (Qlt_bool b 1 && Qlt_bool 0 b) eqn:Hin.
  - apply andb_true_iff in Hin. destruct Hin as [H1 _].
    apply Qlt_bool_iff in H1.
    apply Qmult_le_0_compat; [apply lattice_value_nonneg |].
    apply Qlt_le_weak, Qpower_0_lt. lra.
  - destruct (Qeq_bool b 1).
    + apply Qle_shift_div_l; [now rewrite <- (Zlt_Qlt 0) |].
      rewrite Qmult_0_l. now rewrite <- (Zle_Qle 0).
    + destruct (Qeq_bool b 0); [apply lattice_value_nonneg | apply Qle_refl].
Qed.

(** X6. With [k >= 0] and [n > 0] no entry of the result is negative,
    whatever the betas are. *)
Theorem clustering_entries_nonneg (self : SmallWorld) :
  0 <= k self -> 0 < n self ->
  exists r,
    get_clustering_coefficient self = Ok r /\ Forall (fun v => (0 <= v)%Q) r.
Proof.
  intros Hk Hn. eexists. split; [apply clustering_entries; lia |].
  apply Forall_forall. intros v Hv. apply in_map_iff in Hv.
  destruct Hv as [b [<- _]]. now apply coefficient_at_nonneg.
Qed.

End Metrics.

(** * Further properties of the constructor *)

Section MoreConstruction.
Context {libs : Libs}.

Lemma builder_calls_frame (n k : Z) (l : list Q) (w : World)
    (r : result (list Graph)) (w' : World) :
  mapM (fun b => nx_watts_strogatz_graph n k b) l w = (r, w') ->
  stdout w' = stdout w /\ files w' = files w /\
  current_figure w' = current_figure w /\
  (forall gs, r = Ok gs -> length gs = length l).
Proof.
  revert w r w'. induction l as [| b l IH]; intros w r w'; simpl.
  - unfold ret. intros H. inversion H; subst. repeat split.
    intros gs Hgs. now inversion Hgs.
  - unfold bind at 1. unfold nx_watts_strogatz_graph at 1.
    destruct (watts_strogatz_graph n k b (rng w)) as [[G | e] s0].
    + unfold bind at 1.
      destruct (mapM _ l _) as [[gs | e1] w1] eqn:Hrest;
        destruct (IH _ _ _ Hrest) as [Hs [Hf [Hc Hlen]]]; simpl in *;
        intros H; inversion H; subst; repeat split; try assumption.
      * intros gs' Hgs'. inversion Hgs'. simpl. now rewrite (Hlen gs eq_refl).
      * discriminate.
    + intros H. inversion H; subst. repeat split. discriminate.
Qed.

Lemma mapM_app {A B} (f : A -> M B) (l1 l2 : list A) (w w1 w2 : World)
    (r1 r2 : list B) :
  mapM f l1 w = (Ok r1, w1) -> mapM f l2 w1 = (Ok r2, w2) ->
  mapM f (l1 ++ l2) w = (Ok (r1 ++ r2), w2).
Proof.
  revert w r1. induction l1 as [| a l1 IH]; intros w r1; simpl.
  - unfold ret. intros H. inversion H; subst. tauto.
  - intros H H2. unfold bind in H |- *.
    destruct (f a w) as [[y | e] w0]; [| discriminate].
    destruct (mapM f l1 w0) as [[ys | e] w0'] eqn:Hl1; [| discriminate].
    inversion H; subst. now rewrite (IH _ _ Hl1 H2).
Qed.

(** X7. An object the constructor returns holds its arguments unchanged
    (a list of betas as it was given) and has one graph and one layout
    per beta, each layout the circular layout of its graph. *)
Theorem constructor_invariant (nodes degree : Z) (beta_in : beta_arg)
    (visualize_in : bool) (path : string) (w : World) (self : SmallWorld)
    (w' : World) :
  __init__ nodes degree beta_in visualize_in path w = (Ok self, w') ->
  n self = nodes /\ k self = degree /\ beta self = self_beta beta_in /\
  visualize self = visualize_in /\ fig_path self = path /\
  length (g self) = length (beta self) /\
  pos self = map circular_layout (g self).
Proof.
  unfold __init__, bind.
  destruct (mapM _ _ w) as [[gs | e] w0] eqn:Hgs; [| discriminate].
  intros H. inversion H; subst. simpl. repeat split.
  now apply (builder_calls_frame _ _ _ _ _ _ Hgs).
Qed.

(** X8. The constructor prints nothing, opens no figure and writes no
    file, whether it returns or raises: of the world it changes at most
    the state of the random generator. *)
Theorem constructor_changes_generator_only (nodes degree : Z) (beta_in : beta_arg)
    (visualize_in : bool) (path : string) (w : World) (r : result SmallWorld)
    (w' : World) :
  __init__ nodes degree beta_in visualize_in path w = (r, w') ->
  stdout w' = stdout w /\ files w' = files w /\
  current_figure w' = current_figure w.
Proof.
  unfold __init__, bind.
  destruct (mapM _ _ w) as [[gs | e] w0] eqn:Hgs;
    destruct (builder_calls_frame _ _ _ _ _ _ Hgs) as [Hs [Hf [Hc _]]];
    intros H; inversion H; subst; repeat split; assumption.
Qed.

(** X9. The graphs are built in the order of the betas on one stream of
    random draws: constructing with the list [l1 ++ l2] gives the graphs
    and layouts of a construction with [l1] followed, in the world it
    leaves, by a construction with [l2]. *)
Theorem constructor_concatenates (nodes degree : Z) (l1 l2 : list Q)
    (visualize_in : bool) (path : string) (w w1 w2 : World) (s1 s2 : SmallWorld) :
  __init__ nodes degree (BetaList l1) visualize_in path w = (Ok s1, w1) ->
  __init__ nodes degree (BetaList l2) visualize_in path w1 = (Ok s2, w2) ->
  __init__ nodes degree (BetaList (l1 ++ l2)) visualize_in path w =
  (Ok (mkSmallWorld nodes degree (l1 ++ l2) visualize_in path
         (g s1 ++ g s2) (pos s1 ++ pos s2)), w2).
Proof.
  unfold __init__, bind. simpl.
  destruct (mapM _ l1 w) as [[gs1 | e] w0] eqn:H1; [| discriminate].
  intros H. inversion H; subst. clear H.
  destruct (mapM _ l2 w1) as [[gs2 | e] w0] eqn:H2; [| discriminate].
  intros H. inversion H; subst. clear H. simpl.
  rewrite (mapM_app _ _ _ _ _ _ _ _ H1 H2). now rewrite map_app.
Qed.

End MoreConstruction.

(** * Further properties of [visualize_graph] *)

Section MoreVisualization.
Context {libs : Libs}.




(** X11. The metrics are computed before anything is drawn: when networkx
    rejects one of the graphs in [get_avg_path], [visualize_graph] raises
    that exception and leaves the world as it was, without a figure or a
    file for any beta. *)
Theorem no_image_without_path_lengths (self : SmallWorld) (w : World) (e : exn) :
  n self <= 5000 -> get_avg_path self = Raise e ->
  visualize_graph self w = (Raise e, w).
Proof.
  intros Hn He. unfold visualize_graph.
  destruct (Z.gtb_spec (n self) 5000) as [Hgt | _]; [lia |].
  unfold bind, lift. now rewrite He.
Qed.

Lemma body_frame (self : SmallWorld) (avg_paths clusters : list Q) (ib : nat * Q)
    (w : World) (r : result unit) (w' : World) :
  visualize_graph_body self avg_paths clusters ib w = (r, w') ->
  stdout w' = stdout w /\ rng w' = rng w /\ exists l, files w' = files w ++ l.
Proof.
  unfold visualize_graph_body, bind, lift.
  destruct (getitem avg_paths (fst ib)) as [a | e];
    [| intros H; inversion H; subst; repeat split; exists []; now rewrite app_nil_r].
  destruct (getitem clusters (fst ib)) as [c | e];
    [| intros H; inversion H; subst; repeat split; exists []; now rewrite app_nil_r].
  simpl.
  destruct (getitem (g self) (fst ib)) as [gi | e];
    [| intros H; inversion H; subst; repeat split; exists []; now rewrite app_nil_r].
  destruct (getitem (pos self) (fst ib)) as [p | e];
    [| intros H; inversion H; subst; repeat split; exists []; now rewrite app_nil_r].
  simpl. intros H. inversion H; subst. simpl. repeat split. eexists. reflexivity.
Qed.

Lemma loop_frame (self : SmallWorld) (avg_paths clusters : list Q)
    (ps : list (nat * Q)) :
  forall (w : World) (r : result unit) (w' : World),
  for_ ps (visualize_graph_body self avg_paths clusters) w = (r, w') ->
  stdout w' = stdout w /\ rng w' = rng w /\ exists l, files w' = files w ++ l.
Proof.
  induction ps as [| ib ps IH]; intros w r w'; simpl.
  - unfold ret. intros H. inversion H; subst. repeat split. exists [].
    now rewrite app_nil_r.
  - unfold bind at 1.
    destruct (visualize_graph_body self avg_paths clusters ib w)
      as [[[] | e] w1] eqn:Hib;
      destruct (body_frame _ _ _ _ _ _ _ Hib) as [Hs [Hr [l1 Hl1]]].
    + intros Hrest. destruct (IH _ _ _ Hrest) as [Hs' [Hr' [l2 Hl2]]].
      repeat split; [congruence | congruence |].
      exists (l1 ++ l2). now rewrite Hl2, Hl1, app_assoc.
    + intros H. inversion H; subst. repeat split; try assumption. now exists l1.
Qed.

Lemma loop_or_check_frame (self : SmallWorld) (w : World)
    (r : result unit) (w' : World) :
  visualize_graph self w = (r, w') ->
  stdout w' = stdout w /\ rng w' = rng w /\ exists l, files w' = files w ++ l.
Proof.
  assert (Hsame : forall e, (Raise e, w) = (r, w') ->
            stdout w' = stdout w /\ rng w' = rng w /\
            exists l, files w' = files w ++ l).
  { intros e H. inversion H; subst. repeat split. exists []. now rewrite app_nil_r. }
  unfold visualize_graph. destruct (n self >? 5000); [apply Hsame |].
  unfold bind at 1. unfold lift at 1.
  destruct (get_avg_path self) as [avg_paths | e]; [| apply Hsame].
  unfold bind at 1. unfold lift at 1.
  destruct (get_clustering_coefficient self) as [clusters | e]; [| apply Hsame].
  apply loop_frame.
Qed.


End MoreVisualization.

(** * Properties of [print_info] *)

Section Reporting.
Context {libs : Libs}.

Lemma skipn_nth_error {A} (l : list A) (i : nat) (a : A) :
  nth_error l i = Some a -> skipn i l = a :: skipn (S i) l.
Proof.
  revert l. induction i as [| i IH]; intros [| x l] H; try discriminate.
  - now inversion H.
  - simpl in H. now apply IH.
Qed.

Lemma skipn_past_end {A} (l : list A) (i : nat) :
  nth_error l i = None -> skipn i l = [].
Proof. intros H. apply skipn_all2. now apply nth_error_None. Qed.

Lemma print_info_body_step (avg_paths clusters : list Q) (idx : nat) (b : Q)
    (w : World) :
  print_info_body avg_paths clusters (idx, b) w =
  match nth_error avg_paths idx, nth_error clusters idx with
  | Some a, Some c =>
      (Ok tt, mkWorld (rng w) (stdout w ++ [table_row (b, (a, c))])
                (current_figure w) (files w))
  | _, _ => (Raise (IndexError "list index out of range"), w)
  end.
Proof.
  unfold print_info_body, bind, lift, getitem, print. simpl.
  destruct (nth_error avg_paths idx); [| reflexivity].
  destruct (nth_error clusters idx); reflexivity.
Qed.

Lemma rows_loop (avg_paths clusters l : list Q) :
  forall (start : nat) (w : World),
  exists w',
    for_ (combine (seq start (length l)) l) (print_info_body avg_paths clusters) w =
    (rows_outcome l (skipn start avg_paths) (skipn start clusters), w') /\
    stdout w' =
      stdout w ++
      map table_row (combine l (combine (skipn start avg_paths) (skipn start clusters))) /\
    rng w' = rng w /\ files w' = files w /\ current_figure w' = current_figure w.
Proof.
  induction l as [| b l IH]; intros start w.
  - exists w. unfold rows_outcome. simpl. rewrite app_nil_r. repeat split.
  - cbn [length seq combine for_]. unfold bind at 1.
    rewrite print_info_body_step.
    destruct (nth_error avg_paths start) as [a |] eqn:Ha.
    + destruct (nth_error clusters start) as [c |] eqn:Hc.
      * destruct (IH (S start)
                    (mkWorld (rng w) (stdout w ++ [table_row (b, (a, c))])
                       (current_figure w) (files w)))
          as [w' [Hrun [Hout [Hr [Hf Hfig]]]]].
        cbn [rng stdout current_figure files] in Hout, Hr, Hf, Hfig.
        exists w'. rewrite Hrun, Hout.
        rewrite (skipn_nth_error _ _ _ Ha), (skipn_nth_error _ _ _ Hc).
        cbn [combine map]. rewrite <- app_assoc. repeat split; assumption.
      * exists w. rewrite (skipn_past_end _ _ Hc), (skipn_nth_error _ _ _ Ha).
        unfold rows_outcome. simpl. rewrite app_nil_r. repeat split.
    + exists w. rewrite (skipn_past_end _ _ Ha). unfold rows_outcome. simpl.
      rewrite app_nil_r. repeat split.
Qed.

Lemma print_info_run (self : SmallWorld) (avg_paths clusters : list Q) (w : World) :
  exists w',
    print_info self avg_paths clusters w =
    (rows_outcome (beta self) avg_paths clusters, w') /\
    stdout w' =
      stdout w ++ table_head self ++
      map table_row (combine (beta self) (combine avg_paths clusters)) /\
    rng w' = rng w /\ files w' = files w /\ current_figure w' = current_figure w.
Proof.
  unfold print_info, enumerate.
  change (fun ib : nat * Q => _) with (print_info_body avg_paths clusters).
  unfold bind at 1. unfold print at 1.
  unfold bind at 1. unfold print at 1.
  unfold bind at 1. unfold print at 1. cbn [rng stdout current_figure files].
  match goal with
  | |- context [for_ _ _ ?w0] =>
      destruct (rows_loop avg_paths clusters (beta self) 0 w0)
        as [w' [Hrun [Hout [Hr [Hf Hfig]]]]]
  end.
  exists w'. cbn [skipn rng stdout current_figure files] in *.
  rewrite Hrun, Hout, <- !app_assoc. repeat split; assumption.
Qed.

Lemma rows_count (betas avg_paths clusters : list Q) :
  length (map table_row (combine betas (combine avg_paths clusters))) =
  Nat.min (length betas) (Nat.min (length avg_paths) (length clusters)).
Proof. now rewrite length_map, !length_combine. Qed.


(** X14. With fewer path lengths or fewer clustering coefficients than
    betas, [print_info] raises [IndexError]; the header and the rows of the
    betas before the first missing entry have been printed by then and
    stay on the terminal. *)
Theorem print_info_short_list_raises (self : SmallWorld)
    (avg_paths clusters : list Q) (w : World) :
  (Nat.min (length avg_paths) (length clusters) < length (beta self))%nat ->
  exists w',
    print_info self avg_paths clusters w =
    (Raise (IndexError "list index out of range"), w') /\
    stdout w' =
      stdout w ++ table_head self ++
      map table_row (combine (beta self) (combine avg_paths clusters)) /\
    length (stdout w') =
      (length (stdout w) + 3 + Nat.min (length avg_paths) (length clusters))%nat /\
    rng w' = rng w /\ files w' = files w /\ current_figure w' = current_figure w.
Proof.
  intros Hshort.
  destruct (print_info_run self avg_paths clusters w)
    as [w' [Hrun [Hout [Hr [Hf Hfig]]]]].
  exists w'. unfold rows_outcome in Hrun.
  rewrite (proj2 (Nat.leb_gt _ _)) in Hrun by lia.
  repeat split; try assumption.
  rewrite Hout, !length_app, rows_count. simpl. lia.
Qed.

Lemma length_append (s1 s2 : string) :
  String.length (s1 ++ s2) = (String.length s1 + String.length s2)%nat.
Proof. induction s1 as [| c s1 IH]; simpl; [reflexivity | now rewrite IH]. Qed.

Lemma length_spaces (len : nat) : String.length (spaces len) = len.
Proof.
  unfold spaces. induction len as [| len IH]; simpl; [reflexivity | now rewrite IH].
Qed.

Lemma length_ljust (w : nat) (s : string) :
  String.length (ljust w s) = Nat.max w (String.length s).
Proof. unfold ljust. rewrite length_append, length_spaces. lia. Qed.

Lemma length_rjust (w : nat) (s : string) :
  String.length (rjust w s) = Nat.max w (String.length s).
Proof. unfold rjust. rewrite length_append, length_spaces. lia. Qed.

Lemma length_network_cat (b : Q) : (String.length (network_cat b) <= 30)%nat.
Proof.
  unfold network_cat. destruct (Qeq_bool b 0); [| destruct (Qeq_bool b 1)];
    simpl; lia.
Qed.

(** X15. The table stays aligned as long as the numbers fit their
    columns: when the beta prints in at most 5 characters, the path length
    in at most 20 and the clustering coefficient in at most 30, the row is
    as wide as the header line, 91 characters (the category always fits
    its 30). *)
Theorem rows_are_as_wide_as_the_header (b avg_path cluster : Q) :
  (String.length (str_float b) <= 5)%nat ->
  (String.length (str_float avg_path) <= 20)%nat ->
  (String.length (str_float cluster) <= 30)%nat ->
  String.length (table_row (b, (avg_path, cluster))) = 91%nat /\
  String.length
    (format_row "beta" "avg shortest path" "clustering coefficient"
       "network category") = 91%nat.
Proof.
  intros Hb Ha Hc. split; [| reflexivity].
  unfold table_row, format_row. simpl fst. simpl snd.
  rewrite !length_append, length_ljust, !length_rjust.
  pose proof (length_network_cat b). simpl String.length. lia.
Qed.

End Reporting.

(** * Properties of [main] *)

Section Main.
Context {libs : Libs}.

Lemma rmap_raises {A B} (f : A -> result B) (l : list A) (e : exn) :
  rmap f l = Raise e -> exists a, In a l /\ f a = Raise e.
Proof.
  induction l as [| a l IH]; simpl; [discriminate |].
  destruct (f a) as [y | e0] eqn:Ea; simpl.
  - destruct (rmap f l) as [ys | e1]; simpl; [discriminate |].
    intros H. inversion H; subst. destruct (IH eq_refl) as [a' [Hin Ha']].
    exists a'. split; [now right | assumption].
  - intros H. inversion H; subst. exists a. split; [now left | assumption].
Qed.

Lemma visualize_graph_returns (self : SmallWorld) (w : World) (avg_paths : list Q) :
  n self <= 5000 -> n self <> 0 ->
  length (g self) = length (beta self) -> length (pos self) = length (beta self) ->
  get_avg_path self = Ok avg_paths ->
  exists w', visualize_graph self w = (Ok tt, w').
Proof.
  intros Hle Hn Hg Hp Havg. unfold visualize_graph.
  destruct (Z.gtb_spec (n self) 5000) as [Hgt | _]; [lia |].
  unfold bind at 1. unfold lift at 1. rewrite Havg.
  unfold bind at 1. unfold lift at 1. rewrite (clustering_entries self Hn).
  apply for_returns. intros ib Hin w0.
  apply enumerate_in_range in Hin. apply rmap_length in Havg.
  apply body_returns; rewrite ?length_map; congruence.
Qed.

(** X16. [main] can only fail in networkx: an exception it raises was
    raised by [nx.watts_strogatz_graph] on one of its four betas or by
    [nx.average_shortest_path_length] on a graph; the lists it passes on
    always have the right lengths.  When it returns it has printed seven
    lines (three of header, four rows) and written the four images
    [graph0.png] to [graph3.png]. *)
Theorem main_fails_only_in_networkx (w : World) (r : result unit) (w' : World) :
  main w = (r, w') ->
  match r with
  | Ok _ =>
      length (stdout w') = (length (stdout w) + 7)%nat /\
      map fst (files w') =
        map fst (files w) ++
        ["graph0.png"; "graph1.png"; "graph2.png"; "graph3.png"]%string
  | Raise e =>
      (exists b s s',
         In b [0; 2 # 10; 4 # 10; 1]%Q /\
         watts_strogatz_graph 20 4 b s = (Raise e, s')) \/
      (exists G, average_shortest_path_length G = Raise e)
  end.
Proof.
  unfold main. unfold bind at 1.
  destruct (__init__ 20 4 _ true _ w) as [[network | e] w0] eqn:Hinit.
  2:{ intros H. inversion H; subst. left.
      unfold __init__, bind in Hinit.
      destruct (mapM _ _ w) as [[gs | e0] w1] eqn:Hgs; [discriminate |].
      inversion Hinit; subst. now apply (builder_calls_raise 20 4 _ w w'). }
  assert (Hobj : n network = 20 /\ length (beta network) = 4%nat /\
                 length (g network) = 4%nat /\ length (pos network) = 4%nat /\
                 stdout w0 = stdout w /\ files w0 = files w).
  { unfold __init__, bind in Hinit.
    destruct (mapM _ _ w) as [[gs | e0] w1] eqn:Hgs; [| discriminate].
    destruct (builder_calls_frame _ _ _ _ _ _ Hgs) as [Hs [Hf [_ Hlen]]].
    inversion Hinit; subst. simpl. rewrite length_map, (Hlen gs eq_refl).
    repeat split; assumption. }
  destruct Hobj as [Hn [Hb [Hg [Hp [Hs0 Hf0]]]]].
  unfold bind at 1. unfold lift at 1.
  destruct (get_avg_path network) as [avg_paths | e] eqn:Havg.
  2:{ intros H. inversion H; subst. right.
      destruct (rmap_raises _ _ _ Havg) as [G [_ HG]]. now exists G. }
  unfold bind at 1. unfold lift at 1.
  rewrite clustering_entries by lia.
  destruct (print_info_run network avg_paths
              (map (coefficient_at (n network) (k network)) (beta network)) w0)
    as [w1 [Hrun [Hout [_ [Hf1 _]]]]].
  unfold rows_outcome in Hrun.
  pose proof (rmap_length _ _ _ Havg) as Hlen.
  rewrite (proj2 (Nat.leb_le _ _)) in Hrun by (rewrite length_map; lia).
  unfold bind at 1. rewrite Hrun.
  destruct (visualize_graph_returns network w1 avg_paths) as [w2 Hvis];
    try lia; try assumption.
  rewrite Hvis. intros H. inversion H; subst.
  destruct (loop_or_check_frame network w1 _ _ Hvis) as [Hs2 _].
  destruct (visualize_graph_files _ _ _ _ Hvis) as [m [_ [Hfiles Hall]]].
  rewrite (Hall eq_refl), Hb in Hfiles.
  split.
  - rewrite Hs2, Hout, !length_app, rows_count, length_map, Hs0. simpl. lia.
  - rewrite Hfiles, Hf1, Hf0. reflexivity.
Qed.

End Main.

(** * The methods together *)

Section Together.
Context {libs : Libs}.

Lemma constructed_lengths (nodes degree : Z) (beta_in : beta_arg)
    (visualize_in : bool) (path : string) (w : World) (self : SmallWorld)
    (w' : World) :
  __init__ nodes degree beta_in visualize_in path w = (Ok self, w') ->
  n self = nodes /\ beta self = self_beta beta_in /\
  length (g self) = length (beta self) /\ length (pos self) = length (beta self) /\
  files w' = files w.
Proof.
  unfold __init__, bind.
  destruct (mapM _ _ w) as [[gs | e] w0] eqn:Hgs; [| discriminate].
  destruct (builder_calls_frame _ _ _ _ _ _ Hgs) as [_ [Hf [_ Hlen]]].
  intros H. inversion H; subst. simpl. rewrite length_map, (Hlen gs eq_refl).
  repeat split. assumption.
Qed.


(** X18. The table of an object fresh from the constructor, printed from
    its own two metrics, never runs out of entries: [print_info] returns
    and prints the header and one row per beta. *)
Theorem constructed_object_is_tabulated (nodes degree : Z) (beta_in : beta_arg)
    (visualize_in : bool) (path : string) (w w1 : World) (self : SmallWorld)
    (avg_paths clusters : list Q) :
  __init__ nodes degree beta_in visualize_in path w = (Ok self, w1) ->
  get_avg_path self = Ok avg_paths ->
  get_clustering_coefficient self = Ok clusters ->
  exists w2,
    print_info self avg_paths clusters w1 = (Ok tt, w2) /\
    length (stdout w2) = (length (stdout w1) + 3 + length (self_beta beta_in))%nat.
Proof.
  intros Hinit Havg Hcl.
  destruct (constructed_lengths _ _ _ _ _ _ _ _ Hinit) as [Hn' [Hb [Hg [Hp Hf]]]].
  apply rmap_length in Havg.
  assert (Hc : length clusters = length (beta self)).
  { destruct (Z.eq_dec (n self) 0) as [E | E].
    - rewrite clustering_zero_nodes in Hcl by assumption. discriminate.
    - rewrite clustering_entries in Hcl by assumption. inversion Hcl.
      apply length_map. }
  destruct (print_info_run self avg_paths clusters w1)
    as [w2 [Hrun [Hout _]]].
  unfold rows_outcome in Hrun.
  rewrite (proj2 (Nat.leb_le _ _)) in Hrun by lia.
  exists w2. split; [assumption |].
  rewrite Hout, !length_app, rows_count, <- Hb. simpl. lia.
Qed.

(** X19. The attributes [visualize] and [fig_path] are read by no method:
    two objects that agree on [n], [k], the betas, the graphs and the
    layouts return, print and draw the same; [visualize=False] does not
    keep [visualize_graph] from drawing. *)
Theorem visualize_flag_is_never_read (s1 s2 : SmallWorld) :
  n s1 = n s2 -> k s1 = k s2 -> beta s1 = beta s2 ->
  g s1 = g s2 -> pos s1 = pos s2 ->
  get_avg_path s1 = get_avg_path s2 /\
  get_clustering_coefficient s1 = get_clustering_coefficient s2 /\
  (forall avg_paths clusters w,
     print_info s1 avg_paths clusters w = print_info s2 avg_paths clusters w) /\
  (forall w, visualize_graph s1 w = visualize_graph s2 w).
Proof.
  intros Hn Hk Hb Hg Hp. destruct s1, s2. simpl in *. subst.
  repeat split.
Qed.

End Together.

(** * Concrete runs for the further properties *)

Section MoreRuns.

Ltac conjs := repeat match goal with |- _ /\ _ => split end.
Ltac run := vm_compute; first [reflexivity | discriminate | lia].

Lemma get_avg_path_first_failure_witness :
  g broken = [nth 0 (g broken) (Nx.empty_graph 0)] ++
             nth 1 (g broken) (Nx.empty_graph 0) :: [] /\
  (forall G', In G' [nth 0 (g broken) (Nx.empty_graph 0)] ->
     exists a, Nx.average_shortest_path_length G' = Ok a) /\
  Nx.average_shortest_path_length (nth 1 (g broken) (Nx.empty_graph 0)) =
    Raise (Nx.NetworkXError "Graph is not connected.") /\
  get_avg_path broken = Raise (Nx.NetworkXError "Graph is not connected.").
Proof.
  assert (Hg : g broken = [nth 0 (g broken) (Nx.empty_graph 0)] ++
                          nth 1 (g broken) (Nx.empty_graph 0) :: []) by run.
  assert (H1 : forall G', In G' [nth 0 (g broken) (Nx.empty_graph 0)] ->
                 exists a, Nx.average_shortest_path_length G' = Ok a).
  { intros G' [<- | []]. eexists. vm_compute. reflexivity. }
  assert (H2 : Nx.average_shortest_path_length (nth 1 (g broken) (Nx.empty_graph 0)) =
               Raise (Nx.NetworkXError "Graph is not connected.")) by run.
  conjs; [exact Hg | exact H1 | exact H2 |].
  exact (get_avg_path_first_failure (libs := Nx.libs) broken _ _ _ _ Hg H1 H2).
Defined.

Lemma lattice_entry_exceeds_one_witness :
  (3 <= k network /\ n network <> 0 /\
   nth_error (beta network) 0 = Some 0%Q /\ (0 == 0)%Q) /\
  exists r v,
    get_clustering_coefficient network = Ok r /\ nth_error r 0 = Some v /\ (1 < v)%Q.
Proof.
  split; [conjs; run |].
  apply (lattice_entry_exceeds_one network 0 0%Q); run.
Defined.


Lemma clustering_entries_nonneg_witness :
  (0 <= k network /\ 0 < n network) /\
  exists r,
    get_clustering_coefficient network = Ok r /\ Forall (fun v => (0 <= v)%Q) r.
Proof.
  split; [conjs; run |].
  apply (clustering_entries_nonneg network); run.
Defined.

Lemma constructor_invariant_witness :
  exists w',
    construct 20 4 (BetaList [0; 1 # 2; 1]%Q) 42 = (Ok network, w') /\
    n network = 20 /\ k network = 4 /\
    beta network = self_beta (BetaList [0; 1 # 2; 1]%Q) /\
    visualize network = true /\ fig_path network = "networkx.png"%string /\
    length (g network) = length (beta network) /\
    pos network = map circular_layout (g network).
Proof.
  assert (R : returned (construct 20 4 (BetaList [0; 1 # 2; 1]%Q) 42) = true) by run.
  assert (E : object_of (construct 20 4 (BetaList [0; 1 # 2; 1]%Q) 42) = network)
    by reflexivity.
  destruct (construct 20 4 (BetaList [0; 1 # 2; 1]%Q) 42) as [[self | e] w'] eqn:H;
    [| discriminate R].
  change (self = network) in E. subst self. exists w'. split; [reflexivity |].
  exact (constructor_invariant (libs := Nx.libs) 20 4 (BetaList [0; 1 # 2; 1]%Q) true
           "networkx.png" (Nx.start 42) network w' H).
Defined.

Lemma constructor_changes_generator_only_witness :
  exists r w',
    construct 20 4 (BetaList [0; 1 # 2; 1]%Q) 42 = (r, w') /\
    rng w' <> rng (Nx.start 42) /\
    stdout w' = stdout (Nx.start 42) /\ files w' = files (Nx.start 42) /\
    current_figure w' = current_figure (Nx.start 42).
Proof.
  assert (A : rng (snd (construct 20 4 (BetaList [0; 1 # 2; 1]%Q) 42))
              <> rng (Nx.start 42)) by run.
  destruct (construct 20 4 (BetaList [0; 1 # 2; 1]%Q) 42) as [r w'] eqn:H.
  exists r, w'. split; [reflexivity | split; [exact A |]].
  exact (constructor_changes_generator_only (libs := Nx.libs) 20 4
           (BetaList [0; 1 # 2; 1]%Q) true "networkx.png" (Nx.start 42) r w' H).
Defined.

Lemma constructor_concatenates_witness :
  exists s1 w1 s2 w2,
    construct 20 4 (BetaList [0]%Q) 42 = (Ok s1, w1) /\
    @__init__ Nx.libs 20 4 (BetaList [1 # 2; 1]%Q) true "networkx.png" w1 = (Ok s2, w2) /\
    construct 20 4 (BetaList ([0] ++ [1 # 2; 1])%Q) 42 =
    (Ok (mkSmallWorld 20 4 ([0] ++ [1 # 2; 1])%Q true "networkx.png"
           (g s1 ++ g s2) (pos s1 ++ pos s2)), w2).
Proof.
  assert (R1 : returned (construct 20 4 (BetaList [0]%Q) 42) = true) by run.
  assert (R2 : returned
                 (@__init__ Nx.libs 20 4 (BetaList [1 # 2; 1]%Q) true "networkx.png"
                    (snd (construct 20 4 (BetaList [0]%Q) 42))) = true) by run.
  destruct (construct 20 4 (BetaList [0]%Q) 42) as [[s1 | e] w1] eqn:H1;
    [| discriminate R1].
  cbn [snd] in R2.
  destruct (@__init__ Nx.libs 20 4 (BetaList [1 # 2; 1]%Q) true "networkx.png" w1)
    as [[s2 | e] w2] eqn:H2; [| discriminate R2].
  exists s1, w1, s2, w2. split; [reflexivity | split; [exact H2 |]].
  exact (constructor_concatenates (libs := Nx.libs) 20 4 [0]%Q [1 # 2; 1]%Q true
           "networkx.png" (Nx.start 42) w1 w2 s1 s2 H1 H2).
Defined.


Lemma no_image_without_path_lengths_witness :
  (n broken <= 5000 /\
   get_avg_path broken = Raise (Nx.NetworkXError "Graph is not connected.")) /\
  visualize_graph broken (Nx.start 42) =
  (Raise (Nx.NetworkXError "Graph is not connected."), Nx.start 42).
Proof.
  split; [conjs; run |].
  apply (no_image_without_path_lengths broken (Nx.start 42)); run.
Defined.



Lemma print_info_short_list_raises_witness :
  (Nat.min (length [1100 # 380]%Q) (length [18 # 4; 18 # 32; 4 # 20]%Q)
   < length (beta network))%nat /\
  exists w',
    print_info network [1100 # 380]%Q [18 # 4; 18 # 32; 4 # 20]%Q (Nx.start 42) =
    (Raise (IndexError "list index out of range"), w') /\
    stdout w' =
      stdout (Nx.start 42) ++ table_head network ++
      map (@table_row Nx.libs)
        (combine (beta network)
           (combine [1100 # 380]%Q [18 # 4; 18 # 32; 4 # 20]%Q)) /\
    length (stdout w') =
      (length (stdout (Nx.start 42)) + 3 +
       Nat.min (length [1100 # 380]%Q) (length [18 # 4; 18 # 32; 4 # 20]%Q))%nat /\
    rng w' = rng (Nx.start 42) /\ files w' = files (Nx.start 42) /\
    current_figure w' = current_figure (Nx.start 42).
Proof.
  split; [run |].
  apply (print_info_short_list_raises network); run.
Defined.

Lemma rows_are_as_wide_as_the_header_witness :
  ((String.length (Nx.str_float 0) <= 5)%nat /\
   (String.length (Nx.str_float (1100 # 380)) <= 20)%nat /\
   (String.length (Nx.str_float (18 # 4)) <= 30)%nat) /\
  String.length (@table_row Nx.libs (0, (1100 # 380, 18 # 4))%Q) = 91%nat /\
  String.length
    (format_row "beta" "avg shortest path" "clustering coefficient"
       "network category") = 91%nat.
Proof.
  split; [conjs; run |].
  apply (rows_are_as_wide_as_the_header (libs := Nx.libs)); run.
Defined.

(** The rows of [main]'s network as they are printed. *)
Example network_table :
  map (@table_row Nx.libs)
    (combine (beta network)
       (combine [1100 # 380; 842 # 380; 808 # 380] [18 # 4; 18 # 32; 4 # 20]))%Q =
  ["0.0   |  2.8947368421052631 |                           4.5 |Regular network (Ring lattice)";
   "0.5   |  2.2157894736842105 |                        0.5625 |           Small-world network";
   "1.0   |  2.1263157894736842 |                           0.2 |                Random network"]%string.
Proof. run. Qed.

Lemma main_fails_only_in_networkx_witness :
  exists w',
    @main Nx.libs (Nx.start 42) = (Ok tt, w') /\
    length (stdout w') = (length (stdout (Nx.start 42)) + 7)%nat /\
    map fst (files w') =
      map fst (files (Nx.start 42)) ++
      ["graph0.png"; "graph1.png"; "graph2.png"; "graph3.png"]%string.
Proof.
  assert (R : raised_class (@main Nx.libs (Nx.start 42)) = None) by run.
  destruct (@main Nx.libs (Nx.start 42)) as [[[] | e] w'] eqn:H; [| discriminate R].
  exists w'. split; [reflexivity |].
  exact (main_fails_only_in_networkx (libs := Nx.libs) (Nx.start 42) (Ok tt) w' H).
Defined.


Lemma constructed_object_is_tabulated_witness :
  exists w1,
    (construct 20 4 (BetaList [0; 1 # 2; 1]%Q) 42 = (Ok network, w1) /\
     get_avg_path network = Ok [1100 # 380; 842 # 380; 808 # 380]%Q /\
     get_clustering_coefficient network = Ok [18 # 4; 18 # 32; 4 # 20]%Q) /\
    exists w2,
      print_info network [1100 # 380; 842 # 380; 808 # 380]%Q
        [18 # 4; 18 # 32; 4 # 20]%Q w1 = (Ok tt, w2) /\
      length (stdout w2) =
        (length (stdout w1) + 3 + length (self_beta (BetaList [0; 1 # 2; 1]%Q)))%nat.
Proof.
  assert (R : returned (construct 20 4 (BetaList [0; 1 # 2; 1]%Q) 42) = true) by run.
  assert (E : object_of (construct 20 4 (BetaList [0; 1 # 2; 1]%Q) 42) = network)
    by reflexivity.
  destruct (construct 20 4 (BetaList [0; 1 # 2; 1]%Q) 42) as [[self | e] w1] eqn:H;
    [| discriminate R].
  change (self = network) in E. subst self. exists w1.
  split; [conjs; [reflexivity | run | run] |].
  apply (constructed_object_is_tabulated (libs := Nx.libs) 20 4
           (BetaList [0; 1 # 2; 1]%Q) true "networkx.png" (Nx.start 42) w1 network
           [1100 # 380; 842 # 380; 808 # 380]%Q [18 # 4; 18 # 32; 4 # 20]%Q H); run.
Defined.

Lemma visualize_flag_is_never_read_witness :
  (n network = n network_hidden /\ k network = k network_hidden /\
   beta network = beta network_hidden /\ g network = g network_hidden /\
   pos network = pos network_hidden /\
   visualize network = true /\ visualize network_hidden = false) /\
  get_avg_path network = get_avg_path network_hidden /\
  get_clustering_coefficient network = get_clustering_coefficient network_hidden /\
  (forall avg_paths clusters w,
     print_info network avg_paths clusters w =
     print_info network_hidden avg_paths clusters w) /\
  (forall w, visualize_graph network w = visualize_graph network_hidden w).
Proof.
  split; [conjs; run |].
  apply (visualize_flag_is_never_read network network_hidden); run.
Defined.

End MoreRuns.
